(** * A shallow embedding of the [logger] package (logger.go)

    The package is a facade over the [zap] structured logger: one guarded
    initialisation routine ([LogInit]), a lazy accessor ([GetLogger]), one
    emit function per severity and the context-tagged [LogWithContext].

    The embedding is in three layers.
    - [Module zapcore] and [Module zap]: the part of the imported library
      [go.uber.org/zap] that the package calls (levels, cores, the tee,
      [Logger.check] and [CheckedEntry.Write]), following the library's
      documented behaviour.  Timestamps, call-site text and the rendered
      bytes of a line are left out: a written line is kept as the triple
      (encoder, entry, fields).
    - The process state: the two package-level variables [logger] and
      [once], and the outside world (what was opened, what was written to
      which stream, what the standard [log] package printed).
    - The functions of logger.go, one definition each, in a small monad
      for Go's three ways of leaving a function: return, panic, os.Exit. *)

From Stdlib Require Import ZArith String Ascii List Bool Lia.
Import ListNotations.

#[local] Set Warnings "-register-all".

Local Open Scope string_scope.
Local Open Scope list_scope.
Local Open Scope Z_scope.

(** ** The operating system as the package sees it *)

Module os.

(** [*os.File]: standard output, or a file opened at a path. *)
Inductive File : Type :=
| Stdout
| Opened (path : string).

End os.

(** ** zapcore *)

Module zapcore.

(** [type Level int8], with the library's constants.  Levels are only
    compared, never computed with, so the integers are left unbounded. *)
Definition Level : Type := Z.

Definition DebugLevel  : Level := -1.
Definition InfoLevel   : Level := 0.
Definition WarnLevel   : Level := 1.
Definition ErrorLevel  : Level := 2.
Definition DPanicLevel : Level := 3.
Definition PanicLevel  : Level := 4.
Definition FatalLevel  : Level := 5.

(** [func (l Level) Enabled(lvl Level) bool { return lvl >= l }] *)
Definition Level_Enabled (l lvl : Level) : bool := l <=? lvl.

Inductive TimeEncoder := ISO8601TimeEncoder | EpochTimeEncoder.
Inductive LevelEncoder := CapitalLevelEncoder | LowercaseLevelEncoder.
Inductive CallerEncoder := ShortCallerEncoder | FullCallerEncoder.
Inductive NameEncoder := FullNameEncoder.
Inductive DurationEncoder := StringDurationEncoder | SecondsDurationEncoder.

Definition DefaultLineEnding : string := String (ascii_of_nat 10) EmptyString.

Record EncoderConfig : Type := mkEncoderConfig {
  TimeKey        : string;
  LevelKey       : string;
  NameKey        : string;
  CallerKey      : string;
  MessageKey     : string;
  StacktraceKey  : string;
  EncodeTime     : TimeEncoder;
  EncodeLevel    : LevelEncoder;
  EncodeCaller   : CallerEncoder;
  LineEnding     : string;
  EncodeName     : NameEncoder;
  EncodeDuration : DurationEncoder
}.

Inductive Encoder : Type :=
| NewJSONEncoder (cfg : EncoderConfig)
| NewConsoleEncoder (cfg : EncoderConfig).

(** A [WriteSyncer] here is an [*os.File] (which has a [Sync] method of
    its own), possibly behind the mutex of a [lockedWriteSyncer]. *)
Inductive WriteSyncer : Type :=
| fileSyncer (f : os.File)
| lockedWriteSyncer (ws : WriteSyncer).

(** [AddSync] of an [*os.File] uses the file's own [Sync]; [AddSync] of
    what already is a [WriteSyncer] returns it unchanged. *)
Definition AddSync (f : os.File) : WriteSyncer := fileSyncer f.

Definition AddSync_WriteSyncer (ws : WriteSyncer) : WriteSyncer := ws.

(** [Lock] wraps a [WriteSyncer] in a mutex, unless it already is
    wrapped. *)
Definition Lock (ws : WriteSyncer) : WriteSyncer :=
  match ws with
  | lockedWriteSyncer _ => ws
  | _ => lockedWriteSyncer ws
  end.

(** The file that a write or a sync finally reaches. *)
Fixpoint file_of (ws : WriteSyncer) : os.File :=
  match ws with
  | fileSyncer f => f
  | lockedWriteSyncer ws' => file_of ws'
  end.

(** A structured field: a key and a typed value. *)
Inductive FieldValue : Type :=
| StringType (s : string)
| Int64Type (n : Z)
| BoolType (b : bool)
| DurationType (ns : Z).

Record Field : Type := mkField { Key : string; Value : FieldValue }.

(** The part of [zapcore.Entry] that the package's configuration
    decides: level and message, whether the call site was attached
    ([zap.AddCaller]) and whether a stack trace was
    ([zap.AddStacktrace]). *)
Record Entry : Type := mkEntry {
  ELevel   : Level;
  Message  : string;
  Caller   : bool;
  Stack    : bool
}.

(** One line as a sink receives it. *)
Record Line : Type := mkLine {
  line_enc    : Encoder;
  line_entry  : Entry;
  line_fields : list Field
}.

(** [NewCore] builds an [ioCore]; [NewTee] a [multiCore]. *)
Inductive Core : Type :=
| nopCore
| ioCore (enc : Encoder) (out : WriteSyncer) (enab : Level)
| multiCore (cs : list Core).

Definition NewCore (enc : Encoder) (ws : WriteSyncer) (enab : Level) : Core :=
  ioCore enc ws enab.

(** [NewTee]: no core gives the no-op core, one core gives that core,
    more give the fan-out. *)
Definition NewTee (cores : list Core) : Core :=
  match cores with
  | [] => nopCore
  | [c] => c
  | _ => multiCore cores
  end.

(** [Enabled]: an [ioCore] asks its level, a [multiCore] is enabled as
    soon as one of its cores is. *)
Fixpoint Core_Enabled (c : Core) (lvl : Level) : bool :=
  match c with
  | nopCore => false
  | ioCore _ _ enab => Level_Enabled enab lvl
  | multiCore cs => existsb (fun c' => Core_Enabled c' lvl) cs
  end.

(** What runs after the write of a checked entry. *)
Inductive CheckWriteAction := WriteThenNoop | WriteThenPanic | WriteThenFatal.

(** [CheckedEntry]: the entry, the cores that agreed to write it, and
    the terminal action. *)
Record CheckedEntry : Type := mkCheckedEntry {
  ce_Entry : Entry;
  ce_cores : list Core;
  ce_after : CheckWriteAction
}.

(** [CheckedEntry.AddCore]: on a nil receiver a fresh checked entry
    is made. *)
Definition AddCore (ce : option CheckedEntry) (ent : Entry) (c : Core)
  : option CheckedEntry :=
  match ce with
  | None => Some (mkCheckedEntry ent [c] WriteThenNoop)
  | Some e => Some (mkCheckedEntry (ce_Entry e) (ce_cores e ++ [c]) (ce_after e))
  end.

(** [CheckedEntry.After]: sets the terminal action, again making a
    fresh checked entry (with no core) on a nil receiver. *)
Definition After (ce : option CheckedEntry) (ent : Entry) (a : CheckWriteAction)
  : option CheckedEntry :=
  match ce with
  | None => Some (mkCheckedEntry ent [] a)
  | Some e => Some (mkCheckedEntry (ce_Entry e) (ce_cores e) a)
  end.

(** [Check]: an enabled [ioCore] adds itself; a [multiCore] asks each
    of its cores in turn. *)
Fixpoint Core_Check (c : Core) (ent : Entry) (ce : option CheckedEntry)
  : option CheckedEntry :=
  match c with
  | nopCore => ce
  | ioCore _ _ enab =>
      if Level_Enabled enab (ELevel ent) then AddCore ce ent c else ce
  | multiCore cs => fold_left (fun acc c' => Core_Check c' ent acc) cs ce
  end.

(** [Write]: an [ioCore] encodes the entry with its fields and writes
    the line to its output; a [multiCore] writes to each of its cores.
    The result lists the lines with the file each one reaches, in the
    order of the writes.  Write errors are not modelled, nor is the
    sync that an [ioCore] attempts after a line above error level: it
    changes nothing that is observed here. *)
Fixpoint Core_Write (c : Core) (ent : Entry) (fields : list Field)
  : list (os.File * Line) :=
  match c with
  | nopCore => []
  | ioCore enc out _ => [(file_of out, mkLine enc ent fields)]
  | multiCore cs => flat_map (fun c' => Core_Write c' ent fields) cs
  end.

(** [multierr.Append] on errors kept as their messages. *)
Definition multierr_Append (a b : option string) : option string :=
  match a, b with
  | None, _ => b
  | _, None => a
  | Some x, Some y => Some (x ++ "; " ++ y)%string
  end.

(** [Sync]: an [ioCore] syncs its output, a [multiCore] every core,
    appending the errors.  [sync_err] is the operating system's answer
    to [File.Sync] on each file. *)
Fixpoint Core_Sync (sync_err : os.File -> option string) (c : Core)
  : option string :=
  match c with
  | nopCore => None
  | ioCore _ out _ => sync_err (file_of out)
  | multiCore cs =>
      fold_left (fun err c' => multierr_Append err (Core_Sync sync_err c')) cs None
  end.

End zapcore.

(** ** zap *)

Module zap.

Import zapcore.

Definition Field : Type := zapcore.Field.

(** [zap.String(key, val)] *)
Definition String (key val : string) : Field := mkField key (StringType val).

(** The fields of [zap.Logger] that the options used here set. *)
Record Logger : Type := mkLogger {
  core        : Core;
  development : bool;
  addCaller   : bool;
  addStack    : Level
}.

Inductive Option : Type :=
| AddCaller
| AddStacktrace (lvl : Level)
| Development.

Definition apply (log : Logger) (o : Option) : Logger :=
  match o with
  | AddCaller => mkLogger (core log) (development log) true (addStack log)
  | AddStacktrace lvl => mkLogger (core log) (development log) (addCaller log) lvl
  | Development => mkLogger (core log) true (addCaller log) (addStack log)
  end.

(** [zap.New(core, options...)]: stack traces start above [FatalLevel]
    and no caller is attached, until an option says otherwise. *)
Definition New (c : Core) (options : list Option) : Logger :=
  fold_left apply options (mkLogger c false false (FatalLevel + 1)).

(** [Logger.check]: the level gate, the cores' [Check], the terminal
    action of the panic and fatal levels, and the annotations. *)
Definition check (log : Logger) (lvl : Level) (msg : string)
  : option CheckedEntry :=
  if (lvl <? DPanicLevel) && negb (Core_Enabled (core log) lvl) then None
  else
    let ent := mkEntry lvl msg false false in
    let ce := Core_Check (core log) ent None in
    let willWrite := match ce with Some _ => true | None => false end in
    let ce :=
      if lvl =? PanicLevel then After ce ent WriteThenPanic
      else if lvl =? FatalLevel then After ce ent WriteThenFatal
      else if lvl =? DPanicLevel then
        (if development log then After ce ent WriteThenPanic else ce)
      else ce in
    if negb willWrite then ce
    else
      match ce with
      | None => None
      | Some e =>
          Some (mkCheckedEntry
                  (mkEntry (ELevel (ce_Entry e)) (Message (ce_Entry e))
                     (addCaller log)
                     (Level_Enabled (addStack log) (ELevel (ce_Entry e))))
                  (ce_cores e) (ce_after e))
      end.

End zap.

(** ** The process: package variables and the outside world *)

(** The world outside the process.  [open_err] and [sync_err] are the
    operating system's answers ([None]: no error) and never change;
    [open_calls] lists the paths given to [os.OpenFile], [writes] the
    lines written with the file each reached, [stdlog] the messages of
    the standard [log] package, each in order of time. *)
Record World : Type := mkWorld {
  open_err   : string -> option string;
  sync_err   : os.File -> option string;
  open_calls : list string;
  writes     : list (os.File * zapcore.Line);
  stdlog     : list string
}.

(** [var ( logger *zap.Logger; once sync.Once )], and the world. *)
Record Proc : Type := mkProc {
  logger : option zap.Logger;
  once   : bool;
  world  : World
}.

(** A world in which nothing has been opened, written or printed yet. *)
Definition fresh_world (oe : string -> option string)
  (se : os.File -> option string) : World :=
  mkWorld oe se [] [] [].

(** A process that has just started: [logger] is nil, [once] unused. *)
Definition start (w : World) : Proc := mkProc None false w.

(** ** Control: return, panic, exit *)

Inductive PanicValue : Type :=
| NilDereference
| PanicMessage (msg : string).

Inductive Outcome (A : Type) : Type :=
| Returned (a : A)
| Panicked (v : PanicValue)
| Exited (code : Z).

Arguments Returned {A} a.
Arguments Panicked {A} v.
Arguments Exited {A} code.

Definition M (A : Type) : Type := Proc -> Outcome A * Proc.

Definition ret {A : Type} (a : A) : M A := fun st => (Returned a, st).

Definition bind {A B : Type} (m : M A) (f : A -> M B) : M B :=
  fun st =>
    match m st with
    | (Returned a, st') => f a st'
    | (Panicked v, st') => (Panicked v, st')
    | (Exited c, st') => (Exited c, st')
    end.

Declare Scope go_scope.
Delimit Scope go_scope with go.
Notation "x <- c1 ;; c2" := (bind c1 (fun x => c2))
  (at level 61, c1 at next level, right associativity) : go_scope.
Notation "c1 ;; c2" := (bind c1 (fun _ => c2))
  (at level 61, right associativity) : go_scope.
Local Open Scope go_scope.

Definition panic {A : Type} (v : PanicValue) : M A := fun st => (Panicked v, st).

(** [os.Exit(code)] *)
Definition os_Exit {A : Type} (code : Z) : M A := fun st => (Exited code, st).

(** Reading and writing the package variable [logger]. *)
Definition load_logger : M (option zap.Logger) := fun st => (Returned (logger st), st).

Definition store_logger (l : zap.Logger) : M unit :=
  fun st => (Returned tt, mkProc (Some l) (once st) (world st)).

Definition get_world : M World := fun st => (Returned (world st), st).

Definition put_world (w : World) : M unit :=
  fun st => (Returned tt, mkProc (logger st) (once st) w).

(** [defer d] in front of [body]: [d] runs when [body] returns or
    panics, not when the process exits. *)
Definition defer_ {A : Type} (d : M unit) (body : M A) : M A :=
  fun st =>
    match body st with
    | (Returned a, st') => (d ;; ret a) st'
    | (Panicked v, st') =>
        match d st' with
        | (Returned _, st'') => (Panicked v, st'')
        | (Panicked v', st'') => (Panicked v', st'')
        | (Exited c, st'') => (Exited c, st'')
        end
    | (Exited c, st') => (Exited c, st')
    end.

(** [once.Do(f)]: [f] runs if no call of [Do] ran before, and [once] is
    marked done when [f] is left, by return or by panic. *)
Definition once_Do (f : M unit) : M unit :=
  fun st =>
    if once st then (Returned tt, st)
    else
      match f st with
      | (Exited c, st') => (Exited c, st')
      | (r, st') => (r, mkProc (logger st') true (world st'))
      end.

Definition nl : string := String (ascii_of_nat 10) EmptyString.

(** [log.Printf] and [log.Println] of the standard library: one message
    on the standard logger (the time prefix is left out). *)
Definition log_Printf (msg : string) : M unit :=
  w <- get_world ;;
  put_world (mkWorld (open_err w) (sync_err w) (open_calls w) (writes w)
               (stdlog w ++ [msg])).

Definition log_Println (msg : string) : M unit := log_Printf (msg ++ nl)%string.

(** [os.OpenFile(path, O_APPEND|O_CREATE|O_WRONLY, 0644)]: the file, or
    the error. *)
Definition os_OpenFile (path : string) : M (os.File + string) :=
  w <- get_world ;;
  put_world (mkWorld (open_err w) (sync_err w) (open_calls w ++ [path])
               (writes w) (stdlog w)) ;;
  match open_err w path with
  | None => ret (inl (os.Opened path))
  | Some e => ret (inr e)
  end.

(** ** The methods of [*zap.Logger], on a receiver that may be nil *)

Module Logger.

Import zapcore.

(** [CheckedEntry.Write(fields...)]: every core of the checked entry
    writes, then the terminal action runs. *)
Definition Write (ce : CheckedEntry) (fields : list Field) : M unit :=
  w <- get_world ;;
  put_world (mkWorld (open_err w) (sync_err w) (open_calls w)
               (writes w ++ flat_map (fun c => Core_Write c (ce_Entry ce) fields)
                                     (ce_cores ce))
               (stdlog w)) ;;
  match ce_after ce with
  | WriteThenNoop => ret tt
  | WriteThenPanic => panic (PanicMessage (Message (ce_Entry ce)))
  | WriteThenFatal => os_Exit 1
  end.

(** The common body of [Debug], [Info], [Warn], [Error], [DPanic],
    [Panic] and [Fatal]:
    [if ce := log.check(lvl, msg); ce != nil { ce.Write(fields...) }].
    On a nil receiver reading [log.core] is a nil dereference. *)
Definition log (lvl : Level) (l : option zap.Logger) (msg : string)
  (fields : list Field) : M unit :=
  match l with
  | None => panic NilDereference
  | Some lg =>
      match zap.check lg lvl msg with
      | None => ret tt
      | Some ce => Write ce fields
      end
  end.

Definition Debug  := log DebugLevel.
Definition Info   := log InfoLevel.
Definition Warn   := log WarnLevel.
Definition Error  := log ErrorLevel.
Definition DPanic := log DPanicLevel.
Definition Panic  := log PanicLevel.
Definition Fatal  := log FatalLevel.

(** [Logger.Sync]: [return log.core.Sync()]. *)
Definition Sync (l : option zap.Logger) : M (option string) :=
  match l with
  | None => panic NilDereference
  | Some lg =>
      w <- get_world ;;
      ret (Core_Sync (sync_err w) (zap.core lg))
  end.

End Logger.

(** ** logger.go *)

(** The [switch level] of [LogInit] (lines 26-40): the value given to
    [zapLevel]. *)
Definition zapLevel_of (level : string) : zapcore.Level :=
  if String.eqb level "debug" then zapcore.DebugLevel
  else if String.eqb level "info" then zapcore.InfoLevel
  else if String.eqb level "warn" then zapcore.WarnLevel
  else if String.eqb level "error" then zapcore.ErrorLevel
  else if String.eqb level "fatal" then zapcore.FatalLevel
  else zapcore.InfoLevel.

(** The [encoderConfig] literal of [LogInit] (lines 42-55). *)
Definition encoderConfig : zapcore.EncoderConfig :=
  zapcore.mkEncoderConfig
    "time" "level" "logger" "caller" "message" "stacktrace"
    zapcore.ISO8601TimeEncoder
    zapcore.CapitalLevelEncoder
    zapcore.ShortCallerEncoder
    zapcore.DefaultLineEnding
    zapcore.FullNameEncoder
    zapcore.StringDurationEncoder.

(** [func mustOpenFile(path string) zapcore.WriteSyncer] *)
Definition mustOpenFile (path : string) : M zapcore.WriteSyncer :=
  r <- os_OpenFile path ;;
  match r with
  | inr err =>
      log_Printf ("Failed to open log file: " ++ err ++ nl)%string ;;
      ret (zapcore.AddSync os.Stdout)
  | inl file => ret (zapcore.AddSync file)
  end.

(** [func LogInit(level string)] *)
Definition LogInit (level : string) : M unit :=
  once_Do
    (defer_
       (l <- load_logger ;;
        err <- Logger.Sync l ;;
        match err with
        | Some e => log_Printf ("Failed to flush logger: " ++ e ++ nl)%string
        | None => ret tt
        end)
       (let zapLevel := zapLevel_of level in
        ws <- mustOpenFile "./user-service.log" ;;
        let fileWriteSyncer := zapcore.Lock (zapcore.AddSync_WriteSyncer ws) in
        let consoleWriteSyncer := zapcore.AddSync os.Stdout in
        let core :=
          zapcore.NewTee
            [ zapcore.NewCore (zapcore.NewJSONEncoder encoderConfig)
                fileWriteSyncer zapLevel;
              zapcore.NewCore (zapcore.NewConsoleEncoder encoderConfig)
                consoleWriteSyncer zapLevel ] in
        store_logger
          (zap.New core [zap.AddCaller; zap.AddStacktrace zapcore.ErrorLevel]))).

(** [func ensureLoggerInitialized()] *)
Definition ensureLoggerInitialized : M unit :=
  l <- load_logger ;;
  match l with
  | None =>
      log_Println "Logger not initialized. Initializing with default settings." ;;
      LogInit "info"
  | Some _ => ret tt
  end.

(** [func GetLogger() *zap.Logger] *)
Definition GetLogger : M (option zap.Logger) :=
  ensureLoggerInitialized ;;
  load_logger.

Definition Info (message : string) (fields : list zap.Field) : M unit :=
  l <- GetLogger ;; Logger.Info l message fields.

Definition Debug (message : string) (fields : list zap.Field) : M unit :=
  l <- GetLogger ;; Logger.Debug l message fields.

Definition Error (message : string) (fields : list zap.Field) : M unit :=
  l <- GetLogger ;; Logger.Error l message fields.

Definition Warn (message : string) (fields : list zap.Field) : M unit :=
  l <- GetLogger ;; Logger.Warn l message fields.

Definition Fatal (message : string) (fields : list zap.Field) : M unit :=
  l <- GetLogger ;; Logger.Fatal l message fields.

Definition DPanic (message : string) (fields : list zap.Field) : M unit :=
  l <- GetLogger ;; Logger.DPanic l message fields.

Definition Panic (message : string) (fields : list zap.Field) : M unit :=
  l <- GetLogger ;; Logger.Panic l message fields.

(** [func LogWithContext(level zapcore.Level, message string,
    fields ...zap.Field)].  [append] copies here: [baseFields] has no
    spare capacity. *)
Definition LogWithContext (level : zapcore.Level) (message : string)
  (fields : list zap.Field) : M unit :=
  let baseFields := [zap.String "module" "product-service"] in
  let allFields := baseFields ++ fields in
  if level =? zapcore.DebugLevel then
    l <- load_logger ;; Logger.Debug l message allFields
  else if level =? zapcore.InfoLevel then
    l <- load_logger ;; Logger.Info l message allFields
  else if level =? zapcore.WarnLevel then
    l <- load_logger ;; Logger.Warn l message allFields
  else if level =? zapcore.ErrorLevel then
    l <- load_logger ;; Logger.Error l message allFields
  else if level =? zapcore.FatalLevel then
    l <- load_logger ;; Logger.Fatal l message allFields
  else if level =? zapcore.DPanicLevel then
    l <- load_logger ;; Logger.DPanic l message allFields
  else ret tt.

(** ** Calls of the public functions, for statements over all of them *)

(** The seven severity-specific emit functions. *)
Inductive EmitFn : Type :=
| FnDebug | FnInfo | FnWarn | FnError | FnFatal | FnDPanic | FnPanic.

Definition emit (f : EmitFn) : string -> list zap.Field -> M unit :=
  match f with
  | FnDebug => Debug
  | FnInfo => Info
  | FnWarn => Warn
  | FnError => Error
  | FnFatal => Fatal
  | FnDPanic => DPanic
  | FnPanic => Panic
  end.

(** The severity at which each of them emits. *)
Definition severity (f : EmitFn) : zapcore.Level :=
  match f with
  | FnDebug => zapcore.DebugLevel
  | FnInfo => zapcore.InfoLevel
  | FnWarn => zapcore.WarnLevel
  | FnError => zapcore.ErrorLevel
  | FnFatal => zapcore.FatalLevel
  | FnDPanic => zapcore.DPanicLevel
  | FnPanic => zapcore.PanicLevel
  end.

(** One call of a public function of the package. *)
Inductive Call : Type :=
| CallLogInit (level : string)
| CallGetLogger
| CallEmit (f : EmitFn) (message : string) (fields : list zap.Field)
| CallLogWithContext (level : zapcore.Level) (message : string)
    (fields : list zap.Field).

Definition run (c : Call) : M unit :=
  match c with
  | CallLogInit level => LogInit level
  | CallGetLogger => GetLogger ;; ret tt
  | CallEmit f message fields => emit f message fields
  | CallLogWithContext level message fields => LogWithContext level message fields
  end.

(** The state after a sequence of calls, each made in the state the one
    before left (a panic is taken as recovered by the caller; after an
    exit no further call can be made, so a sequence is cut there). *)
Fixpoint run_all (cs : list Call) (st : Proc) : Proc :=
  match cs with
  | [] => st
  | c :: cs' =>
      match run c st with
      | (Exited _, st') => st'
      | (_, st') => run_all cs' st'
      end
  end.

(** The states a process can be in: it starts with [logger] nil and
    [once] unused, and then only the public functions act on them. *)
Inductive reachable : Proc -> Prop :=
| reach_start : forall w, reachable (start w)
| reach_call : forall st c, reachable st -> reachable (snd (run c st)).

(** The minimum severity in force: the level of the logger's cores. *)
Definition min_levels (st : Proc) : option (list zapcore.Level) :=
  match logger st with
  | None => None
  | Some lg =>
      match zap.core lg with
      | zapcore.multiCore cs =>
          Some (flat_map (fun c => match c with
                                   | zapcore.ioCore _ _ l => [l]
                                   | _ => []
                                   end) cs)
      | zapcore.ioCore _ _ l => Some [l]
      | zapcore.nopCore => Some []
      end
  end.

(** * Vocabulary of the statements *)

(** ** What initialisation builds *)

(** The file that the file sink reaches: the log file when it opens,
    standard output when it does not. *)
Definition fileSink (w : World) : os.File :=
  match open_err w "./user-service.log" with
  | None => os.Opened "./user-service.log"
  | Some _ => os.Stdout
  end.

(** A logger with a JSON sink on [f] and a console sink on standard
    output, both at level [L], callers on, stack traces from error. *)
Definition configured (L : zapcore.Level) (f : os.File) : zap.Logger :=
  zap.mkLogger
    (zapcore.multiCore
       [ zapcore.ioCore (zapcore.NewJSONEncoder encoderConfig)
           (zapcore.lockedWriteSyncer (zapcore.fileSyncer f)) L;
         zapcore.ioCore (zapcore.NewConsoleEncoder encoderConfig)
           (zapcore.fileSyncer os.Stdout) L ])
    false true zapcore.ErrorLevel.

(** The two lines of one record: the JSON line and the console line. *)
Definition jsonLine (s : zapcore.Level) (msg : string)
  (fields : list zap.Field) : zapcore.Line :=
  zapcore.mkLine (zapcore.NewJSONEncoder encoderConfig)
    (zapcore.mkEntry s msg true (zapcore.ErrorLevel <=? s)) fields.

Definition consoleLine (s : zapcore.Level) (msg : string)
  (fields : list zap.Field) : zapcore.Line :=
  zapcore.mkLine (zapcore.NewConsoleEncoder encoderConfig)
    (zapcore.mkEntry s msg true (zapcore.ErrorLevel <=? s)) fields.

(** What the standard logger receives during initialisation. *)
Definition openFailure (w : World) : list string :=
  match open_err w "./user-service.log" with
  | None => []
  | Some e => [("Failed to open log file: " ++ e ++ nl)%string]
  end.

Definition flushFailure (w : World) : list string :=
  match zapcore.multierr_Append (sync_err w (fileSink w)) (sync_err w os.Stdout) with
  | None => []
  | Some e => [("Failed to flush logger: " ++ e ++ nl)%string]
  end.

Definition initWorld (w : World) : World :=
  mkWorld (open_err w) (sync_err w)
    (open_calls w ++ ["./user-service.log"])
    (writes w)
    (stdlog w ++ openFailure w ++ flushFailure w).

(** The levels that [LogWithContext] has a branch for. *)
Definition dispatched (level : zapcore.Level) : bool :=
  (level =? zapcore.DebugLevel) || (level =? zapcore.InfoLevel) ||
  (level =? zapcore.WarnLevel) || (level =? zapcore.ErrorLevel) ||
  (level =? zapcore.FatalLevel) || (level =? zapcore.DPanicLevel).

(** How a call of [Logger.log] at level [s] ends on a production
    logger. *)
Definition ending (s : zapcore.Level) (msg : string) : Outcome unit :=
  if s =? zapcore.PanicLevel then Panicked (PanicMessage msg)
  else if s =? zapcore.FatalLevel then Exited 1
  else Returned tt.

(** The lines that a record of severity [s] adds on a logger whose two
    sinks have level [L]. *)
Definition admitted (L : zapcore.Level) (f : os.File) (s : zapcore.Level)
  (msg : string) (fields : list zap.Field) : list (os.File * zapcore.Line) :=
  if L <=? s
  then [(f, jsonLine s msg fields); (os.Stdout, consoleLine s msg fields)]
  else [].

Definition addWrites (w : World) (k : list (os.File * zapcore.Line)) : World :=
  mkWorld (open_err w) (sync_err w) (open_calls w) (writes w ++ k) (stdlog w).

Definition notInitialized : string :=
  ("Logger not initialized. Initializing with default settings." ++ nl)%string.

Definition addLog (w : World) (msg : string) : World :=
  mkWorld (open_err w) (sync_err w) (open_calls w) (writes w) (stdlog w ++ [msg]).

(** The two package variables are in one of two shapes. *)
Definition unused (st : Proc) : Prop := once st = false /\ logger st = None.

Definition initialized (st : Proc) : Prop :=
  once st = true /\ exists L f, logger st = Some (configured L f).

(** The state that default initialisation leaves. *)
Definition defaultInit (st : Proc) : Proc :=
  mkProc (Some (configured zapcore.InfoLevel (fileSink (world st)))) true
    (initWorld (addLog (world st) notInitialized)).



(** A world in which every file opens and every sync succeeds, and one
    in which no file opens and standard output cannot be synced. *)
Definition quiet : World := fresh_world (fun _ => None) (fun _ => None).

Definition readOnly : World :=
  fresh_world (fun _ => Some "permission denied")
    (fun f => match f with
              | os.Stdout => Some "sync /dev/stdout: invalid argument"
              | os.Opened _ => None
              end).

(** The service that a log file path of the form [./<service>.log]
    names. *)
Fixpoint strip_prefix (p s : string) : option string :=
  match p with
  | EmptyString => Some s
  | String a p' =>
      match s with
      | EmptyString => None
      | String b s' => if Ascii.eqb a b then strip_prefix p' s' else None
      end
  end.

Definition strip_suffix (x s : string) : option string :=
  let n := (String.length s - String.length x)%nat in
  if String.eqb (substring n (String.length x) s) x
  then Some (substring 0 n s) else None.

Definition service_of_path (path : string) : option string :=
  match strip_prefix "./" path with
  | Some rest => strip_suffix ".log" rest
  | None => None
  end.

(** ** What a sequence of calls leaves in the world *)

(** Whether a line was encoded by the JSON encoder, and what a line
    says apart from its encoding. *)
Definition isJSON (l : zapcore.Line) : bool :=
  match zapcore.line_enc l with
  | zapcore.NewJSONEncoder _ => true
  | zapcore.NewConsoleEncoder _ => false
  end.

Definition payload (l : zapcore.Line) : zapcore.Entry * list zap.Field :=
  (zapcore.line_entry l, zapcore.line_fields l).

(** The records that went through the JSON sink, and those that went
    through the console sink, in order. *)
Definition jsonRecords (w : World) : list (zapcore.Entry * list zap.Field) :=
  map payload (filter isJSON (map snd (writes w))).

Definition consoleRecords (w : World) : list (zapcore.Entry * list zap.Field) :=
  map payload (filter (fun l => negb (isJSON l)) (map snd (writes w))).

(** Lines written record by record: each record is a JSON line on [g]
    followed by the console line of the same record on standard
    output. *)
Inductive recorded (g : os.File) : list (os.File * zapcore.Line) -> Prop :=
| recorded_nil : recorded g []
| recorded_snoc : forall k s msg fields,
    recorded g k ->
    recorded g (k ++ [(g, jsonLine s msg fields);
                      (os.Stdout, consoleLine s msg fields)]).

(** How a process stands with respect to the world [w] it started in:
    the operating system's answers are those of [w]; the lines written
    since then came record by record; and either nothing was initialised,
    opened or printed, or the logger was built once, from a level name,
    the log file was asked for once, and the standard logger received
    at most the notice of lazy initialisation, the open failure and the
    flush failure, in this order. *)
Definition tracks (w : World) (st : Proc) : Prop :=
  open_err (world st) = open_err w /\
  sync_err (world st) = sync_err w /\
  (exists k, writes (world st) = writes w ++ k /\ recorded (fileSink w) k) /\
  ((unused st /\
    open_calls (world st) = open_calls w /\
    stdlog (world st) = stdlog w) \/
   (once st = true /\
    (exists level : string,
        logger st = Some (configured (zapLevel_of level) (fileSink w))) /\
    open_calls (world st) = open_calls w ++ ["./user-service.log"] /\
    exists notice : list string,
      (notice = [] \/ notice = [notInitialized]) /\
      stdlog (world st) =
        stdlog w ++ notice ++ openFailure w ++ flushFailure w)).

(** * Properties *)

Ltac run_go :=
  unfold bind, ret, panic, os_Exit, load_logger, store_logger, get_world,
    put_world, log_Printf, log_Println; simpl.

Lemma LogInit_unused (level : string) (st : Proc) :
  once st = false ->
  LogInit level st =
    (Returned tt,
     mkProc (Some (configured (zapLevel_of level) (fileSink (world st))))
       true (initWorld (world st))).
Proof.
  intros Honce.
  unfold LogInit, once_Do. rewrite Honce.
  unfold defer_, mustOpenFile, os_OpenFile, Logger.Sync.
  unfold initWorld, openFailure, flushFailure, fileSink, configured.
  run_go.
  destruct (open_err (world st) "./user-service.log") as [e|]; simpl;
    run_go;
    match goal with
    | |- context [zapcore.multierr_Append ?a ?b] =>
        destruct (zapcore.multierr_Append a b); simpl
    end;
    rewrite ?app_nil_r, <- ?app_assoc; reflexivity.
Qed.

Lemma LogInit_done (level : string) (st : Proc) :
  once st = true -> LogInit level st = (Returned tt, st).
Proof.
  intros Honce. unfold LogInit, once_Do. rewrite Honce. reflexivity.
Qed.

(** ** One emission on a configured logger *)

Lemma addWrites_nil (w : World) : addWrites w [] = w.
Proof. destruct w; unfold addWrites; simpl; rewrite app_nil_r; reflexivity. Qed.

Lemma Proc_eta (st : Proc) : mkProc (logger st) (once st) (world st) = st.
Proof. destruct st; reflexivity. Qed.

(** On a nil logger every emit method is a nil dereference and nothing
    else happens. *)
Lemma log_nil (s : zapcore.Level) (msg : string) (fields : list zap.Field)
  (st : Proc) :
  Logger.log s None msg fields st = (Panicked NilDereference, st).
Proof. reflexivity. Qed.

(** On a configured logger, an emission at [s] below the panic levels
    writes the admitted lines and returns; at the panic and fatal levels
    it writes them and then panics or exits. *)
Lemma log_configured (L : zapcore.Level) (f : os.File) (s : zapcore.Level)
  (msg : string) (fields : list zap.Field) (st : Proc) :
  Logger.log s (Some (configured L f)) msg fields st =
    (if (L <=? s) || (zapcore.DPanicLevel <? s) then ending s msg else Returned tt,
     mkProc (logger st) (once st)
       (addWrites (world st) (admitted L f s msg fields))).
Proof.
  unfold Logger.log, zap.check, configured, admitted, ending, addWrites,
    jsonLine, consoleLine, zapcore.Level_Enabled,
    zapcore.DPanicLevel, zapcore.PanicLevel, zapcore.FatalLevel,
    zapcore.ErrorLevel.
  cbn [zap.core zap.development zap.addCaller zap.addStack
       zapcore.Core_Enabled zapcore.Core_Check existsb fold_left
       zapcore.Level_Enabled zapcore.ELevel].
  unfold zapcore.Level_Enabled.
  destruct (L <=? s) eqn:HL; cbn [orb negb andb zapcore.AddCore];
    destruct (s <? 3) eqn:H3; cbn [orb negb andb];
    destruct (s =? 4) eqn:H4; destruct (s =? 5) eqn:H5;
    destruct (s =? 3) eqn:H3'; destruct (3 <? s) eqn:H3'';
    try lia;
    unfold Logger.Write; run_go;
    rewrite ?app_nil_r, ?Proc_eta; try reflexivity;
    try (destruct st as [lg o [a b c d e]]; simpl; rewrite ?app_nil_r; reflexivity).
Qed.

(** ** The lazy accessor *)

Lemma GetLogger_set (st : Proc) (lg : zap.Logger) :
  logger st = Some lg -> GetLogger st = (Returned (Some lg), st).
Proof.
  intros H. unfold GetLogger, ensureLoggerInitialized. run_go.
  rewrite H. simpl. rewrite H. reflexivity.
Qed.

Lemma GetLogger_nil (st : Proc) :
  logger st = None ->
  GetLogger st =
    (let st' := snd (LogInit "info" (mkProc None (once st)
                                       (addLog (world st) notInitialized))) in
     (Returned (logger st'), st')).
Proof.
  destruct st as [lg o w]. simpl. intros ->.
  unfold GetLogger, ensureLoggerInitialized, log_Println, log_Printf,
    bind at 1 2 3 4, load_logger at 1, get_world, put_world.
  cbn [logger once world].
  fold (addLog w notInitialized).
  destruct o.
  - rewrite !LogInit_done by reflexivity. reflexivity.
  - rewrite !LogInit_unused by reflexivity. reflexivity.
Qed.

(** [GetLogger] always returns, and what it returns is the package
    variable as it stands after the call. *)
Lemma GetLogger_returns (st : Proc) :
  fst (GetLogger st) = Returned (logger (snd (GetLogger st))).
Proof.
  destruct (logger st) as [lg|] eqn:H.
  - rewrite (GetLogger_set st lg H). simpl. rewrite H. reflexivity.
  - rewrite (GetLogger_nil st H). reflexivity.
Qed.

(** ** What no call changes *)

Lemma LogInit_initializes (level : string) (st : Proc) :
  unused st \/ initialized st -> initialized (snd (LogInit level st)).
Proof.
  intros [[Ho Hl] | [Ho Hl]].
  - rewrite LogInit_unused by assumption. split; simpl; eauto.
  - rewrite LogInit_done by assumption. split; assumption.
Qed.

Lemma emit_unfold (f : EmitFn) (msg : string) (fields : list zap.Field) :
  emit f msg fields =
    (l <- GetLogger ;; Logger.log (severity f) l msg fields).
Proof. destruct f; reflexivity. Qed.

Lemma LogWithContext_dispatched (level : zapcore.Level) (msg : string)
  (fields : list zap.Field) :
  dispatched level = true ->
  LogWithContext level msg fields =
    (l <- load_logger ;;
     Logger.log level l msg (zap.String "module" "product-service" :: fields)).
Proof.
  unfold dispatched, LogWithContext, Logger.Debug, Logger.Info, Logger.Warn,
    Logger.Error, Logger.Fatal, Logger.DPanic.
  intros H.
  destruct (Z.eqb_spec level zapcore.DebugLevel) as [->|]; [reflexivity|].
  destruct (Z.eqb_spec level zapcore.InfoLevel) as [->|]; [reflexivity|].
  destruct (Z.eqb_spec level zapcore.WarnLevel) as [->|]; [reflexivity|].
  destruct (Z.eqb_spec level zapcore.ErrorLevel) as [->|]; [reflexivity|].
  destruct (Z.eqb_spec level zapcore.FatalLevel) as [->|]; [reflexivity|].
  destruct (Z.eqb_spec level zapcore.DPanicLevel) as [->|]; [reflexivity|].
  discriminate H.
Qed.

Lemma LogWithContext_other (level : zapcore.Level) (msg : string)
  (fields : list zap.Field) (st : Proc) :
  dispatched level = false ->
  LogWithContext level msg fields st = (Returned tt, st).
Proof.
  unfold dispatched, LogWithContext. intros H.
  destruct (level =? zapcore.DebugLevel); [discriminate H|].
  destruct (level =? zapcore.InfoLevel); [discriminate H|].
  destruct (level =? zapcore.WarnLevel); [discriminate H|].
  destruct (level =? zapcore.ErrorLevel); [discriminate H|].
  destruct (level =? zapcore.FatalLevel); [discriminate H|].
  destruct (level =? zapcore.DPanicLevel); [discriminate H|].
  reflexivity.
Qed.

(** On an initialised process a call of an emit function is one
    emission on the logger in force; the package variables stay. *)
Lemma emit_initialized (f : EmitFn) (msg : string) (fields : list zap.Field)
  (st : Proc) (L : zapcore.Level) (g : os.File) :
  logger st = Some (configured L g) ->
  emit f msg fields st =
    Logger.log (severity f) (Some (configured L g)) msg fields st.
Proof.
  intros H. rewrite emit_unfold. unfold bind.
  rewrite (GetLogger_set st _ H). reflexivity.
Qed.

Lemma LogWithContext_initialized (level : zapcore.Level) (msg : string)
  (fields : list zap.Field) (st : Proc) (L : zapcore.Level) (g : os.File) :
  dispatched level = true ->
  logger st = Some (configured L g) ->
  LogWithContext level msg fields st =
    Logger.log level (Some (configured L g)) msg
      (zap.String "module" "product-service" :: fields) st.
Proof.
  intros Hd H. rewrite (LogWithContext_dispatched level msg fields Hd).
  unfold bind, load_logger. rewrite H. reflexivity.
Qed.

(** Every call keeps an initialised process initialised, with the same
    logger. *)
Lemma run_keeps_logger (c : Call) (st : Proc) :
  initialized st ->
  logger (snd (run c st)) = logger st /\ once (snd (run c st)) = true.
Proof.
  intros [Ho [L [g Hl]]].
  destruct c as [level | | f msg fields | level msg fields]; simpl.
  - rewrite LogInit_done by assumption. auto.
  - unfold bind. rewrite (GetLogger_set st _ Hl). simpl. auto.
  - rewrite (emit_initialized f msg fields st L g Hl), log_configured.
    simpl. auto.
  - destruct (dispatched level) eqn:Hd.
    + rewrite (LogWithContext_initialized level msg fields st L g Hd Hl),
        log_configured.
      simpl. auto.
    + rewrite LogWithContext_other by assumption. auto.
Qed.

Lemma run_initialized (c : Call) (st : Proc) :
  initialized st -> initialized (snd (run c st)).
Proof.
  intros H. destruct (run_keeps_logger c st H) as [Hl Ho].
  destruct H as [_ [L [g H]]].
  split; [assumption|]. exists L, g. rewrite Hl. assumption.
Qed.

Lemma run_all_keeps_logger (cs : list Call) (st : Proc) :
  initialized st ->
  logger (run_all cs st) = logger st /\ once (run_all cs st) = true.
Proof.
  revert st. induction cs as [|c cs IH]; intros st H.
  - simpl. destruct H. auto.
  - simpl.
    pose proof (run_keeps_logger c st H) as [Hl Ho].
    pose proof (run_initialized c st H) as Hi.
    destruct (run c st) as [[a|v|code] st'] eqn:E; simpl in *.
    + destruct (IH st' Hi) as [IH1 IH2]. rewrite IH1. auto.
    + destruct (IH st' Hi) as [IH1 IH2]. rewrite IH1. auto.
    + auto.
Qed.

Lemma run_all_initialized (cs : list Call) (st : Proc) :
  initialized st -> initialized (run_all cs st).
Proof.
  intros H. destruct (run_all_keeps_logger cs st H) as [Hl Ho].
  destruct H as [_ [L [g H]]].
  split; [assumption|]. exists L, g. rewrite Hl. assumption.
Qed.

(** ** The first call on an unused process *)

Lemma GetLogger_unused (st : Proc) :
  unused st ->
  GetLogger st = (Returned (logger (defaultInit st)), defaultInit st).
Proof.
  intros [Ho Hl]. rewrite (GetLogger_nil st Hl), Ho.
  rewrite LogInit_unused by reflexivity. reflexivity.
Qed.

Lemma emit_unused (f : EmitFn) (msg : string) (fields : list zap.Field)
  (st : Proc) :
  unused st ->
  emit f msg fields st =
    Logger.log (severity f)
      (Some (configured zapcore.InfoLevel (fileSink (world st))))
      msg fields (defaultInit st).
Proof.
  intros H. rewrite emit_unfold. unfold bind.
  rewrite (GetLogger_unused st H). reflexivity.
Qed.

Lemma LogWithContext_nil (level : zapcore.Level) (msg : string)
  (fields : list zap.Field) (st : Proc) :
  logger st = None ->
  LogWithContext level msg fields st =
    (if dispatched level then Panicked (NilDereference) else Returned tt, st).
Proof.
  intros H. destruct (dispatched level) eqn:Hd.
  - rewrite (LogWithContext_dispatched level msg fields Hd).
    unfold bind, load_logger. rewrite H. reflexivity.
  - apply LogWithContext_other. assumption.
Qed.

Lemma run_shape (c : Call) (st : Proc) :
  unused st \/ initialized st ->
  unused (snd (run c st)) \/ initialized (snd (run c st)).
Proof.
  intros [H | H]; [| right; apply run_initialized; assumption].
  destruct c as [level | | f msg fields | level msg fields]; simpl.
  - right. apply LogInit_initializes. left. assumption.
  - right. unfold bind. rewrite (GetLogger_unused st H). simpl.
    split; simpl; eauto.
  - right. rewrite (emit_unused f msg fields st H), log_configured. simpl.
    split; simpl; eauto.
  - left. destruct H as [Ho Hl].
    rewrite (LogWithContext_nil level msg fields st Hl). simpl.
    split; assumption.
Qed.

(** A reachable process is unused or initialised: [logger] is nil
    exactly as long as [once] has not run. *)
Lemma reachable_shape (st : Proc) :
  reachable st -> unused st \/ initialized st.
Proof.
  induction 1 as [w | st c Hr IH].
  - left. split; reflexivity.
  - apply run_shape. assumption.
Qed.

(** Along any sequence of calls made one after the other, the logger is
    built at most once: the log file is opened by the call that turns
    the process from unused to initialised, and by no other. *)
Lemma run_opens_once (c : Call) (st : Proc) (opened : list string) :
  (unused st /\ open_calls (world st) = opened) \/
  (initialized st /\
   open_calls (world st) = opened ++ ["./user-service.log"]) ->
  (unused (snd (run c st)) /\ open_calls (world (snd (run c st))) = opened) \/
  (initialized (snd (run c st)) /\
   open_calls (world (snd (run c st))) = opened ++ ["./user-service.log"]).
Proof.
  intros [[H Ho] | [H Ho]].
  - destruct c as [level | | f msg fields | level msg fields]; simpl.
    + right. destruct H as [H1 H2].
      rewrite LogInit_unused by assumption. simpl. rewrite Ho.
      split; [split; simpl; eauto | reflexivity].
    + right. unfold bind. rewrite (GetLogger_unused st H). simpl. rewrite Ho.
      split; [split; simpl; eauto | reflexivity].
    + right. rewrite (emit_unused f msg fields st H), log_configured. simpl.
      rewrite Ho. split; [split; simpl; eauto | reflexivity].
    + left. destruct H as [H1 H2].
      rewrite (LogWithContext_nil level msg fields st H2). simpl.
      split; [split; assumption | assumption].
  - right. split; [apply run_initialized; assumption|].
    destruct H as [H1 [L [g H2]]].
    destruct c as [level | | f msg fields | level msg fields]; simpl.
    + rewrite LogInit_done by assumption. assumption.
    + unfold bind. rewrite (GetLogger_set st _ H2). assumption.
    + rewrite (emit_initialized f msg fields st L g H2), log_configured.
      assumption.
    + destruct (dispatched level) eqn:Hd.
      * rewrite (LogWithContext_initialized level msg fields st L g Hd H2),
          log_configured.
        assumption.
      * rewrite LogWithContext_other by assumption. assumption.
Qed.

Lemma run_all_opens_once (cs : list Call) (w : World) :
  open_calls (world (run_all cs (start w))) = open_calls w \/
  open_calls (world (run_all cs (start w))) =
    open_calls w ++ ["./user-service.log"].
Proof.
  assert (G : forall cs st,
             (unused st /\ open_calls (world st) = open_calls w) \/
             (initialized st /\
              open_calls (world st) = open_calls w ++ ["./user-service.log"]) ->
             open_calls (world (run_all cs st)) = open_calls w \/
             open_calls (world (run_all cs st)) =
               open_calls w ++ ["./user-service.log"]).
  { clear cs. induction cs as [| c cs IH]; intros st H.
    - simpl. destruct H as [[_ H] | [_ H]]; auto.
    - simpl. pose proof (run_opens_once c st (open_calls w) H) as Hc.
      destruct (run c st) as [[a | v | code] st']; simpl in Hc.
      + apply IH. assumption.
      + apply IH. assumption.
      + destruct Hc as [[_ Hc] | [_ Hc]]; auto. }
  apply G. left. split; [split; reflexivity | reflexivity].
Qed.

(** Every line that a core writes carries the fields it was given. *)
Lemma Core_Write_fields (ent : zapcore.Entry) (fields : list zap.Field) :
  forall (c : zapcore.Core) (p : os.File * zapcore.Line),
    In p (zapcore.Core_Write c ent fields) ->
    zapcore.line_fields (snd p) = fields.
Proof.
  fix IH 1. intros [| enc out enab | cs] p; simpl.
  - intros [].
  - intros [<- | []]. reflexivity.
  - induction cs as [| c cs IHcs]; simpl.
    + intros [].
    + intros H. apply in_app_or in H. destruct H as [H | H].
      * apply (IH c p H).
      * apply IHcs. assumption.
Qed.

Lemma flat_Core_Write_fields (ent : zapcore.Entry) (fields : list zap.Field)
  (cs : list zapcore.Core) (p : os.File * zapcore.Line) :
  In p (flat_map (fun c => zapcore.Core_Write c ent fields) cs) ->
  zapcore.line_fields (snd p) = fields.
Proof.
  rewrite in_flat_map. intros [c [_ H]].
  apply (Core_Write_fields ent fields c p H).
Qed.

(** Whatever the logger, an emit method only appends lines, and each
    appended line carries exactly the fields of the call. *)
Lemma log_appends (s : zapcore.Level) (l : option zap.Logger) (msg : string)
  (fields : list zap.Field) (st : Proc) :
  exists k,
    snd (Logger.log s l msg fields st) =
      mkProc (logger st) (once st) (addWrites (world st) k) /\
    Forall (fun p => zapcore.line_fields (snd p) = fields) k.
Proof.
  destruct l as [lg|]; simpl.
  - destruct (zap.check lg s msg) as [ce|].
    + exists (flat_map (fun c => zapcore.Core_Write c (zapcore.ce_Entry ce) fields)
                (zapcore.ce_cores ce)).
      split.
      * unfold Logger.Write. run_go.
        destruct (zapcore.ce_after ce); reflexivity.
      * apply Forall_forall. intros p Hp.
        apply (flat_Core_Write_fields _ _ _ _ Hp).
    + exists []. split; [| constructor].
      unfold ret. simpl. rewrite addWrites_nil, Proc_eta. reflexivity.
  - exists []. split; [| constructor].
    unfold panic. simpl. rewrite addWrites_nil, Proc_eta. reflexivity.
Qed.

(** ** Statements about the package *)

Lemma min_levels_configured (st : Proc) (L : zapcore.Level) (g : os.File) :
  logger st = Some (configured L g) -> min_levels st = Some [L; L].
Proof. intros H. unfold min_levels. rewrite H. reflexivity. Qed.

Lemma initialized_after_LogInit (level : string) (w : World) :
  initialized (snd (LogInit level (start w))).
Proof. apply LogInit_initializes. left. split; reflexivity. Qed.

Lemma logger_after_LogInit (level : string) (w : World) (cs : list Call) :
  logger (run_all cs (snd (LogInit level (start w)))) =
    Some (configured (zapLevel_of level) (fileSink w)).
Proof.
  destruct (run_all_keeps_logger cs _ (initialized_after_LogInit level w))
    as [Hl _].
  rewrite Hl, LogInit_unused by reflexivity. reflexivity.
Qed.




(** C2.  The level switch of [LogInit] maps the five names to their
    levels, compares case-sensitively, and sends every other string, the
    empty one included, to info; initialisation then returns normally
    with that level on both sinks, for every string. *)
Theorem level_name_resolution :
  zapLevel_of "debug" = zapcore.DebugLevel /\
  zapLevel_of "info" = zapcore.InfoLevel /\
  zapLevel_of "warn" = zapcore.WarnLevel /\
  zapLevel_of "error" = zapcore.ErrorLevel /\
  zapLevel_of "fatal" = zapcore.FatalLevel /\
  (forall s : string,
      s <> "debug" -> s <> "info" -> s <> "warn" -> s <> "error" ->
      s <> "fatal" -> zapLevel_of s = zapcore.InfoLevel) /\
  zapLevel_of "" = zapcore.InfoLevel /\
  zapLevel_of "DEBUG" = zapcore.InfoLevel /\
  zapLevel_of "Error" = zapcore.InfoLevel /\
  zapLevel_of "FATAL" = zapcore.InfoLevel /\
  (forall (level : string) (w : World),
      fst (LogInit level (start w)) = Returned tt /\
      min_levels (snd (LogInit level (start w))) =
        Some [zapLevel_of level; zapLevel_of level]).
Proof.
  repeat (split; [reflexivity|]).
  split.
  - intros s H1 H2 H3 H4 H5. unfold zapLevel_of.
    destruct (String.eqb_spec s "debug"); [contradiction|].
    destruct (String.eqb_spec s "info"); [contradiction|].
    destruct (String.eqb_spec s "warn"); [contradiction|].
    destruct (String.eqb_spec s "error"); [contradiction|].
    destruct (String.eqb_spec s "fatal"); [contradiction|].
    reflexivity.
  - repeat (split; [reflexivity|]).
    intros level w. rewrite LogInit_unused by reflexivity. split; reflexivity.
Qed.

(** C3.  A second [LogInit] changes nothing: after [LogInit a], in any
    state, [LogInit b] returns and leaves the state exactly as it was.
    On a process started fresh the level in force is that of [a], and it
    stays in force through every later sequence of calls, a second
    [LogInit b] among them. *)
Theorem first_LogInit_wins :
  forall (a b : string),
    (forall st : Proc,
        LogInit b (snd (LogInit a st)) = (Returned tt, snd (LogInit a st))) /\
    (forall (w : World) (cs : list Call),
        let st1 := snd (LogInit a (start w)) in
        min_levels st1 = Some [zapLevel_of a; zapLevel_of a] /\
        logger (run_all (CallLogInit b :: cs) st1) = logger st1 /\
        min_levels (run_all (CallLogInit b :: cs) st1) =
          Some [zapLevel_of a; zapLevel_of a]).
Proof.
  intros a b. split.
  - intros st. apply LogInit_done.
    destruct (once st) eqn:Ho.
    + rewrite LogInit_done by assumption. assumption.
    + rewrite LogInit_unused by assumption. reflexivity.
  - intros w cs st1.
    pose proof (logger_after_LogInit a w (CallLogInit b :: cs)) as Hl.
    pose proof (logger_after_LogInit a w []) as H1.
    simpl run_all at 1 in H1. fold st1 in Hl, H1.
    split; [apply (min_levels_configured _ _ _ H1)|].
    split; [rewrite Hl, H1; reflexivity|].
    apply (min_levels_configured _ _ _ Hl).
Qed.

(** C4.  [GetLogger] always returns, and returns the package variable
    [logger] as it stands after the call; on an initialised process it
    changes nothing; on a fresh process it first prints a notice and runs
    [LogInit "info"], so that the logger returned has level info on both
    sinks.  Each of the seven emit functions, called on a fresh process,
    never dereferences a nil logger: it initialises at info and then
    ends as its severity says (fatal exits, panic panics with the
    message, the others return). *)
Theorem GetLogger_self_initializes :
  (forall st : Proc,
      fst (GetLogger st) = Returned (logger (snd (GetLogger st)))) /\
  (forall (st : Proc) (lg : zap.Logger),
      logger st = Some lg -> GetLogger st = (Returned (Some lg), st)) /\
  (forall w : World,
      GetLogger (start w) =
        (Returned (Some (configured zapcore.InfoLevel (fileSink w))),
         snd (LogInit "info" (mkProc None false (addLog w notInitialized)))) /\
      min_levels (snd (GetLogger (start w))) =
        Some [zapcore.InfoLevel; zapcore.InfoLevel]) /\
  (forall (w : World) (f : EmitFn) (msg : string) (fields : list zap.Field),
      fst (emit f msg fields (start w)) = ending (severity f) msg /\
      fst (emit f msg fields (start w)) <> Panicked NilDereference /\
      min_levels (snd (emit f msg fields (start w))) =
        Some [zapcore.InfoLevel; zapcore.InfoLevel]).
Proof.
  split; [exact GetLogger_returns|].
  split; [exact GetLogger_set|].
  assert (Hu : forall w, unused (start w)) by (intros w; split; reflexivity).
  split.
  - intros w. rewrite (GetLogger_unused _ (Hu w)).
    rewrite LogInit_unused by reflexivity. split; reflexivity.
  - intros w f msg fields.
    rewrite (emit_unused f msg fields _ (Hu w)), log_configured.
    simpl fst. simpl snd.
    assert (He : fst (A:=Outcome unit) (B:=Proc)
                   (if (zapcore.InfoLevel <=? severity f)
                       || (zapcore.DPanicLevel <? severity f)
                    then ending (severity f) msg else Returned tt,
                    start w) = ending (severity f) msg)
      by (destruct f; reflexivity).
    simpl in He. rewrite He.
    split; [reflexivity|].
    split; [destruct f; discriminate | reflexivity].
Qed.

(** C5 as stated fails: on a process where nothing was initialised,
    [LogWithContext] at the panic level returns normally, with the state
    untouched, since no branch reads [logger]. *)
Lemma LogWithContext_panic_level_before_init :
  LogWithContext zapcore.PanicLevel "x" [] (start quiet) =
    (Returned tt, start quiet) /\
  fst (LogWithContext zapcore.PanicLevel "x" [] (start quiet)) <>
    Panicked NilDereference.
Proof. split; [reflexivity | discriminate]. Qed.

(** C5, amended.  [LogWithContext] reads [logger] directly and never
    initialises: while [logger] is nil, a call on one of the six levels
    it dispatches (debug, info, warn, error, fatal, dpanic) is a nil
    dereference, a call on any other level returns, and in both cases
    the state is left as it was; once [logger] is set, no call is a nil
    dereference.  On a reachable process [logger] is nil exactly when no
    initialisation has run. *)
Theorem LogWithContext_reads_logger_directly :
  forall (level : zapcore.Level) (msg : string) (fields : list zap.Field)
         (st : Proc),
    (logger st = None ->
     LogWithContext level msg fields st =
       (if dispatched level then Panicked NilDereference else Returned tt, st)) /\
    (forall lg : zap.Logger,
        logger st = Some lg ->
        fst (LogWithContext level msg fields st) <> Panicked NilDereference) /\
    (reachable st -> (logger st = None <-> once st = false)).
Proof.
  intros level msg fields st.
  split; [apply LogWithContext_nil|].
  split.
  - intros lg Hl. destruct (dispatched level) eqn:Hd.
    + rewrite (LogWithContext_dispatched level msg fields Hd).
      unfold bind, load_logger. rewrite Hl. simpl.
      destruct (zap.check lg level msg) as [ce|]; [| discriminate].
      unfold Logger.Write. run_go.
      destruct (zapcore.ce_after ce); discriminate.
    + rewrite LogWithContext_other by assumption. discriminate.
  - intros Hr. destruct (reachable_shape st Hr) as [[Ho Hl] | [Ho [L [g Hl]]]].
    + split; auto.
    + rewrite Hl, Ho. split; discriminate.
Qed.

Lemma LogWithContext_reads_logger_directly_witness :
  LogWithContext zapcore.InfoLevel "x" [] (start quiet) =
    (Panicked NilDereference, start quiet) /\
  fst (LogWithContext zapcore.InfoLevel "x" []
         (snd (LogInit "debug" (start quiet)))) <> Panicked NilDereference.
Proof.
  split.
  - apply (proj1 (LogWithContext_reads_logger_directly
                    zapcore.InfoLevel "x" [] (start quiet))).
    reflexivity.
  - apply (proj1 (proj2 (LogWithContext_reads_logger_directly
                           zapcore.InfoLevel "x" []
                           (snd (LogInit "debug" (start quiet)))))
             (configured zapcore.DebugLevel (os.Opened "./user-service.log"))).
    reflexivity.
Defined.



(** C7.  On every level outside the six that it dispatches, the panic
    level among them, [LogWithContext] returns normally and leaves the
    whole state as it was: nothing is written to any sink, nothing is
    printed and no panic is raised, whether or not the logger was
    initialised. *)
Theorem LogWithContext_drops_other_levels :
  forall (level : zapcore.Level) (msg : string) (fields : list zap.Field)
         (st : Proc),
    level <> zapcore.DebugLevel -> level <> zapcore.InfoLevel ->
    level <> zapcore.WarnLevel -> level <> zapcore.ErrorLevel ->
    level <> zapcore.FatalLevel -> level <> zapcore.DPanicLevel ->
    LogWithContext level msg fields st = (Returned tt, st).
Proof.
  intros level msg fields st H1 H2 H3 H4 H5 H6.
  apply LogWithContext_other. unfold dispatched.
  apply Z.eqb_neq in H1, H2, H3, H4, H5, H6.
  rewrite H1, H2, H3, H4, H5, H6. reflexivity.
Qed.

Lemma LogWithContext_drops_panic_level_witness :
  LogWithContext zapcore.PanicLevel "boom" [zap.String "k" "v"]
    (snd (LogInit "debug" (start quiet))) =
    (Returned tt, snd (LogInit "debug" (start quiet))).
Proof.
  apply (LogWithContext_drops_other_levels zapcore.PanicLevel "boom"
           [zap.String "k" "v"] (snd (LogInit "debug" (start quiet))));
    vm_compute; discriminate.
Defined.

(** C8.  When the log file does not open, [LogInit] still returns
    normally (its only result is the unit of a normal return): the file
    sink of the logger it builds writes to standard output, nothing is
    written to any sink during initialisation, and the failure appears
    only as the message ["Failed to open log file: <err>"] on the
    standard logger, followed at most by the message of a failed flush.
    A record admitted afterwards lands twice on standard output, once
    per sink. *)
Theorem LogInit_open_failure_falls_back_to_stdout :
  forall (level : string) (w : World) (e : string),
    open_err w "./user-service.log" = Some e ->
    let st1 := snd (LogInit level (start w)) in
    fst (LogInit level (start w)) = Returned tt /\
    logger st1 = Some (configured (zapLevel_of level) os.Stdout) /\
    writes (world st1) = writes w /\
    stdlog (world st1) =
      stdlog w ++ [("Failed to open log file: " ++ e ++ nl)%string]
               ++ flushFailure w /\
    (forall (f : EmitFn) (msg : string) (fields : list zap.Field),
        zapLevel_of level <= severity f ->
        writes (world (snd (emit f msg fields st1))) =
          writes w ++
          [(os.Stdout, jsonLine (severity f) msg fields);
           (os.Stdout, consoleLine (severity f) msg fields)]).
Proof.
  intros level w e He st1.
  assert (Hs : fileSink w = os.Stdout) by (unfold fileSink; rewrite He; reflexivity).
  assert (E : LogInit level (start w) =
              (Returned tt,
               mkProc (Some (configured (zapLevel_of level) os.Stdout)) true
                 (initWorld w))).
  { rewrite LogInit_unused by reflexivity. simpl. rewrite Hs. reflexivity. }
  unfold st1. rewrite E. simpl.
  split; [reflexivity|].
  split; [reflexivity|].
  split; [reflexivity|].
  split.
  - unfold openFailure. rewrite He. reflexivity.
  - intros f msg fields HL.
    rewrite (emit_initialized f msg fields _ (zapLevel_of level) os.Stdout)
      by reflexivity.
    rewrite log_configured. unfold admitted.
    apply Z.leb_le in HL. rewrite HL. reflexivity.
Qed.

Lemma LogInit_open_failure_witness :
  fst (LogInit "info" (start readOnly)) = Returned tt /\
  stdlog (world (snd (LogInit "info" (start readOnly)))) =
    [("Failed to open log file: permission denied" ++ nl)%string;
     ("Failed to flush logger: sync /dev/stdout: invalid argument; sync /dev/stdout: invalid argument" ++ nl)%string] /\
  writes (world (snd (Info "z" [] (snd (LogInit "info" (start readOnly)))))) =
    [(os.Stdout, jsonLine 0 "z" []); (os.Stdout, consoleLine 0 "z" [])].
Proof.
  pose proof (LogInit_open_failure_falls_back_to_stdout
                "info" readOnly "permission denied" eq_refl) as H.
  cbv zeta in H.
  destruct H as [H1 [_ [_ [H4 H5]]]].
  split; [exact H1|].
  split; [exact H4|].
  apply (H5 FnInfo "z" []). vm_compute. discriminate.
Defined.

(** C10 as stated fails on one point: the file sink does not always
    write to ["./user-service.log"].  Where that file does not open, the
    JSON line of an admitted record lands on standard output and nothing
    is written to the file. *)
Lemma file_sink_writes_to_stdout_when_open_fails :
  writes (world (snd (Info "z" [] (snd (LogInit "info" (start readOnly)))))) =
    [(os.Stdout, jsonLine 0 "z" []); (os.Stdout, consoleLine 0 "z" [])] /\
  ~ In (os.Opened "./user-service.log")
      (map fst (writes (world (snd (Info "z" []
                                      (snd (LogInit "info" (start readOnly)))))))).
Proof.
  split; [reflexivity|].
  simpl. intros [H | [H | []]]; discriminate H.
Qed.

(** C10, amended.  The two hardcoded service names differ.  For every
    level name [LogInit] opens exactly the path ["./user-service.log"];
    the file sink writes to that file whenever it opens, and to standard
    output when it does not; every line that [LogWithContext] writes, at
    any level, starts with the field [("module", "product-service")];
    and the service that the file path names, user-service, is not the
    service of the module field. *)
Theorem service_identifiers_disagree :
  (forall (level : string) (w : World),
      open_calls (world (snd (LogInit level (start w)))) =
        open_calls w ++ ["./user-service.log"]) /\
  (forall (level : string) (w : World),
      open_err w "./user-service.log" = None ->
      logger (snd (LogInit level (start w))) =
        Some (configured (zapLevel_of level) (os.Opened "./user-service.log"))) /\
  (forall (level : string) (w : World) (e : string),
      open_err w "./user-service.log" = Some e ->
      logger (snd (LogInit level (start w))) =
        Some (configured (zapLevel_of level) os.Stdout)) /\
  (forall (level : zapcore.Level) (msg : string) (fields : list zap.Field)
          (st : Proc),
      exists k : list (os.File * zapcore.Line),
        snd (LogWithContext level msg fields st) =
          mkProc (logger st) (once st) (addWrites (world st) k) /\
        Forall (fun p => hd_error (zapcore.line_fields (snd p)) =
                           Some (zapcore.mkField "module"
                                   (zapcore.StringType "product-service"))) k) /\
  service_of_path "./user-service.log" = Some "user-service" /\
  "user-service" <> "product-service".
Proof.
  split.
  { intros level w. rewrite LogInit_unused by reflexivity. reflexivity. }
  split.
  { intros level w H. rewrite LogInit_unused by reflexivity. simpl.
    unfold fileSink. rewrite H. reflexivity. }
  split.
  { intros level w e H. rewrite LogInit_unused by reflexivity. simpl.
    unfold fileSink. rewrite H. reflexivity. }
  split.
  { intros level msg fields st. destruct (dispatched level) eqn:Hd.
    - rewrite (LogWithContext_dispatched level msg fields Hd).
      destruct (log_appends level (logger st) msg
                  (zap.String "module" "product-service" :: fields) st)
        as [k [Hk Hf]].
      exists k. split; [exact Hk|].
      apply Forall_forall. intros p Hp.
      rewrite Forall_forall in Hf. rewrite (Hf p Hp). reflexivity.
    - rewrite LogWithContext_other by assumption.
      exists []. split; [| constructor].
      simpl. rewrite addWrites_nil, Proc_eta. reflexivity. }
  split; [reflexivity | discriminate].
Qed.

Lemma service_identifiers_witness :
  logger (snd (LogInit "error" (start quiet))) =
    Some (configured zapcore.ErrorLevel (os.Opened "./user-service.log")).
Proof.
  apply (proj1 (proj2 service_identifiers_disagree) "error" quiet).
  reflexivity.
Defined.

(** * Further properties of the package *)

(** ** The invariant of a running process *)

Lemma fileSink_env (w1 w2 : World) :
  open_err w1 = open_err w2 -> fileSink w1 = fileSink w2.
Proof. intros H. unfold fileSink. rewrite H. reflexivity. Qed.

Lemma openFailure_env (w1 w2 : World) :
  open_err w1 = open_err w2 -> openFailure w1 = openFailure w2.
Proof. intros H. unfold openFailure. rewrite H. reflexivity. Qed.

Lemma flushFailure_env (w1 w2 : World) :
  open_err w1 = open_err w2 -> sync_err w1 = sync_err w2 ->
  flushFailure w1 = flushFailure w2.
Proof.
  intros H1 H2. unfold flushFailure.
  rewrite (fileSink_env w1 w2 H1), H2. reflexivity.
Qed.

Lemma recorded_admitted (g : os.File) (k : list (os.File * zapcore.Line))
  (L s : zapcore.Level) (msg : string) (fields : list zap.Field) :
  recorded g k -> recorded g (k ++ admitted L g s msg fields).
Proof.
  intros H. unfold admitted. destruct (L <=? s).
  - apply recorded_snoc. assumption.
  - rewrite app_nil_r. assumption.
Qed.

Lemma zapLevel_of_range (level : string) :
  zapLevel_of level = zapcore.DebugLevel \/
  zapLevel_of level = zapcore.InfoLevel \/
  zapLevel_of level = zapcore.WarnLevel \/
  zapLevel_of level = zapcore.ErrorLevel \/
  zapLevel_of level = zapcore.FatalLevel.
Proof.
  unfold zapLevel_of.
  destruct (String.eqb level "debug"); [auto|].
  destruct (String.eqb level "info"); [auto|].
  destruct (String.eqb level "warn"); [auto|].
  destruct (String.eqb level "error"); [auto 6|].
  destruct (String.eqb level "fatal"); auto 6.
Qed.

Lemma tracks_start (w : World) : tracks w (start w).
Proof.
  unfold tracks. simpl. repeat split.
  - exists []. split; [rewrite app_nil_r; reflexivity | constructor].
  - left. repeat split.
Qed.

(** An emission on the logger in force keeps the invariant. *)
Lemma tracks_emission (w : World) (st : Proc) (L s : zapcore.Level)
  (msg : string) (fields : list zap.Field) :
  tracks w st ->
  tracks w (mkProc (logger st) (once st)
              (addWrites (world st) (admitted L (fileSink w) s msg fields))).
Proof.
  intros (Hoe & Hse & (k & Hk & Hrec) & Hshape).
  unfold tracks. simpl.
  split; [assumption|]. split; [assumption|]. split.
  - exists (k ++ admitted L (fileSink w) s msg fields).
    split; [rewrite Hk, app_assoc; reflexivity|].
    apply recorded_admitted. assumption.
  - exact Hshape.
Qed.

(** Initialisation, explicit or lazy, keeps it. *)
Lemma tracks_LogInit (w : World) (st : Proc) (level : string) :
  tracks w st -> unused st ->
  tracks w (mkProc (Some (configured (zapLevel_of level) (fileSink (world st))))
              true (initWorld (world st))).
Proof.
  intros (Hoe & Hse & Hw & Hshape) Hu.
  destruct Hshape as [(_ & Hoc & Hlog) | (Ho & _)];
    [| destruct Hu as [Hu _]; congruence].
  unfold tracks. simpl.
  split; [assumption|]. split; [assumption|]. split; [assumption|].
  right. split; [reflexivity|]. split.
  - exists level. rewrite (fileSink_env _ _ Hoe). reflexivity.
  - split; [rewrite Hoc; reflexivity|].
    exists []. split; [left; reflexivity|].
    rewrite Hlog, (openFailure_env _ _ Hoe), (flushFailure_env _ _ Hoe Hse).
    reflexivity.
Qed.

Lemma tracks_defaultInit (w : World) (st : Proc) :
  tracks w st -> unused st -> tracks w (defaultInit st).
Proof.
  intros (Hoe & Hse & Hw & Hshape) Hu.
  destruct Hshape as [(_ & Hoc & Hlog) | (Ho & _)];
    [| destruct Hu as [Hu _]; congruence].
  unfold tracks, defaultInit. simpl.
  split; [assumption|]. split; [assumption|]. split; [assumption|].
  right. split; [reflexivity|]. split.
  - exists "info". rewrite (fileSink_env _ _ Hoe). reflexivity.
  - split; [rewrite Hoc; reflexivity|].
    exists [notInitialized]. split; [right; reflexivity|].
    assert (E1 : openFailure (addLog (world st) notInitialized) = openFailure w)
      by (apply openFailure_env; exact Hoe).
    assert (E2 : flushFailure (addLog (world st) notInitialized) = flushFailure w)
      by (apply flushFailure_env; [exact Hoe | exact Hse]).
    rewrite E1, E2, Hlog, <- app_assoc. reflexivity.
Qed.

Lemma tracks_logger (w : World) (st : Proc) :
  tracks w st -> once st = true ->
  exists level : string,
    logger st = Some (configured (zapLevel_of level) (fileSink w)).
Proof.
  intros (_ & _ & _ & [([Ho _] & _) | (_ & H & _)]) Honce.
  - congruence.
  - exact H.
Qed.

Lemma tracks_shape (w : World) (st : Proc) :
  tracks w st -> unused st \/ once st = true.
Proof.
  intros (_ & _ & _ & [(H & _) | (H & _)]); auto.
Qed.

(** Every call keeps the invariant. *)
Lemma run_tracks (w : World) (c : Call) (st : Proc) :
  tracks w st -> tracks w (snd (run c st)).
Proof.
  intros H. destruct (tracks_shape w st H) as [Hu | Ho].
  - pose proof H as (Hoe & _).
    destruct c as [level | | f msg fields | level msg fields]; simpl.
    + destruct Hu as [Hu1 Hu2]. rewrite LogInit_unused by assumption. simpl.
      apply tracks_LogInit; [assumption | split; assumption].
    + unfold bind. rewrite (GetLogger_unused st Hu). simpl.
      apply tracks_defaultInit; assumption.
    + rewrite (emit_unused f msg fields st Hu), log_configured.
      rewrite (fileSink_env _ _ Hoe).
      apply (tracks_emission w (defaultInit st) zapcore.InfoLevel
               (severity f) msg fields).
      apply tracks_defaultInit; assumption.
    + destruct Hu as [Hu1 Hu2].
      rewrite (LogWithContext_nil level msg fields st Hu2). assumption.
  - destruct (tracks_logger w st H Ho) as [name Hl].
    destruct c as [level | | f msg fields | level msg fields]; simpl.
    + rewrite LogInit_done by assumption. assumption.
    + unfold bind. rewrite (GetLogger_set st _ Hl). assumption.
    + rewrite (emit_initialized f msg fields st _ _ Hl), log_configured.
      apply (tracks_emission w st (zapLevel_of name) (severity f) msg fields).
      assumption.
    + destruct (dispatched level) eqn:Hd.
      * rewrite (LogWithContext_initialized level msg fields st _ _ Hd Hl),
          log_configured.
        apply (tracks_emission w st (zapLevel_of name) level msg
                 (zap.String "module" "product-service" :: fields)).
        assumption.
      * rewrite LogWithContext_other by assumption. assumption.
Qed.

Lemma run_all_tracks (w : World) (cs : list Call) :
  forall st : Proc, tracks w st -> tracks w (run_all cs st).
Proof.
  induction cs as [| c cs IH]; intros st H; simpl.
  - assumption.
  - pose proof (run_tracks w c st H) as Hc.
    destruct (run c st) as [[a | v | code] st']; simpl in Hc; auto.
Qed.

Lemma reached_tracks (w : World) (cs : list Call) :
  tracks w (run_all cs (start w)).
Proof. apply run_all_tracks, tracks_start. Qed.

Lemma recorded_Forall (g : os.File) (P : os.File * zapcore.Line -> Prop) :
  (forall s msg fields,
      P (g, jsonLine s msg fields) /\ P (os.Stdout, consoleLine s msg fields)) ->
  forall k, recorded g k -> Forall P k.
Proof.
  intros HP k H. induction H as [| k s msg fields H IH].
  - constructor.
  - apply Forall_app. split; [assumption|].
    destruct (HP s msg fields) as [H1 H2].
    constructor; [assumption|]. constructor; [assumption|]. constructor.
Qed.

Lemma recorded_lockstep (g : os.File) (k : list (os.File * zapcore.Line)) :
  recorded g k ->
  map payload (filter isJSON (map snd k)) =
    map payload (filter (fun l => negb (isJSON l)) (map snd k)).
Proof.
  intros H. induction H as [| k s msg fields H IH].
  - reflexivity.
  - rewrite map_app, !filter_app, !map_app, IH. reflexivity.
Qed.

(** The lines written since a fresh world, record by record. *)
Lemma reached_recorded (oe : string -> option string)
  (se : os.File -> option string) (cs : list Call) :
  recorded (fileSink (fresh_world oe se))
    (writes (world (run_all cs (start (fresh_world oe se))))).
Proof.
  destruct (reached_tracks (fresh_world oe se) cs)
    as (_ & _ & (k & Hk & Hrec) & _).
  rewrite Hk. exact Hrec.
Qed.

(** ** How the emit functions end *)

(** X1.  Whatever was called before, and whatever level is in force, an
    emit function ends as its severity says and in no other way:
    [Fatal] exits with status 1, [Panic] panics with the message, and
    [Debug], [Info], [Warn], [Error] and [DPanic] return; [DPanic] never
    panics, since the logger is built without the development option. *)
Theorem emit_ends_by_severity :
  forall (w : World) (cs : list Call) (f : EmitFn) (msg : string)
         (fields : list zap.Field),
    fst (emit f msg fields (run_all cs (start w))) =
      match f with
      | FnFatal => Exited 1
      | FnPanic => Panicked (PanicMessage msg)
      | FnDebug | FnInfo | FnWarn | FnError | FnDPanic => Returned tt
      end.
Proof.
  intros w cs f msg fields.
  pose proof (reached_tracks w cs) as H.
  destruct (tracks_shape _ _ H) as [Hu | Ho].
  - rewrite (emit_unused f msg fields _ Hu), log_configured.
    destruct f; reflexivity.
  - destruct (tracks_logger _ _ H Ho) as [name Hl].
    rewrite (emit_initialized f msg fields _ _ _ Hl), log_configured.
    destruct f; simpl; rewrite ?orb_true_r, ?orb_false_r;
      try reflexivity;
      destruct (zapLevel_of name <=? _); reflexivity.
Qed.

(** X2.  No level name silences [Fatal]: on every process, initialised
    or not, a call of [Fatal] appends its record to both sinks and then
    exits with status 1. *)
Theorem Fatal_is_never_filtered :
  forall (w : World) (cs : list Call) (msg : string) (fields : list zap.Field),
    let st := run_all cs (start w) in
    fst (Fatal msg fields st) = Exited 1 /\
    writes (world (snd (Fatal msg fields st))) =
      writes (world st) ++
      [(fileSink w, jsonLine zapcore.FatalLevel msg fields);
       (os.Stdout, consoleLine zapcore.FatalLevel msg fields)].
Proof.
  intros w cs msg fields st.
  pose proof (reached_tracks w cs) as H. fold st in H.
  pose proof H as (Hoe & _).
  change (Fatal msg fields st) with (emit FnFatal msg fields st).
  destruct (tracks_shape _ _ H) as [Hu | Ho].
  - rewrite (emit_unused FnFatal msg fields _ Hu), log_configured.
    rewrite (fileSink_env _ _ Hoe). split; reflexivity.
  - destruct (tracks_logger _ _ H Ho) as [name Hl].
    rewrite (emit_initialized FnFatal msg fields _ _ _ Hl), log_configured.
    assert (HL : (zapLevel_of name <=? severity FnFatal) = true).
    { apply Z.leb_le.
      destruct (zapLevel_of_range name) as [E | [E | [E | [E | E]]]];
        rewrite E; vm_compute; discriminate. }
    unfold admitted. rewrite HL. split; reflexivity.
Qed.

(** X3.  [Panic] and the level name ["fatal"]: [Panic] panics with its
    message on every level, but its record is written only when the
    level in force is not fatal.  After [LogInit] with a name that
    resolves to fatal, [Panic] panics and [DPanic] returns with the whole
    state untouched (no line on any sink); with any other name the
    record of [Panic] is on both sinks before the panic. *)
Theorem Panic_is_dropped_under_fatal :
  forall (level : string) (w : World) (before : list Call) (msg : string)
         (fields : list zap.Field),
    let st := run_all before (snd (LogInit level (start w))) in
    (zapLevel_of level = zapcore.FatalLevel ->
     Panic msg fields st = (Panicked (PanicMessage msg), st) /\
     DPanic msg fields st = (Returned tt, st)) /\
    (zapLevel_of level <> zapcore.FatalLevel ->
     fst (Panic msg fields st) = Panicked (PanicMessage msg) /\
     writes (world (snd (Panic msg fields st))) =
       writes (world st) ++
       [(fileSink w, jsonLine zapcore.PanicLevel msg fields);
        (os.Stdout, consoleLine zapcore.PanicLevel msg fields)]).
Proof.
  intros level w before msg fields st.
  pose proof (logger_after_LogInit level w before) as Hl. fold st in Hl.
  change (Panic msg fields st) with (emit FnPanic msg fields st).
  change (DPanic msg fields st) with (emit FnDPanic msg fields st).
  rewrite (emit_initialized FnPanic msg fields _ _ _ Hl),
    (emit_initialized FnDPanic msg fields _ _ _ Hl), !log_configured.
  unfold admitted. split.
  - intros E. rewrite E. simpl.
    rewrite addWrites_nil, Proc_eta. split; reflexivity.
  - intros NE.
    assert (HL : (zapLevel_of level <=? severity FnPanic) = true).
    { apply Z.leb_le.
      destruct (zapLevel_of_range level) as [E | [E | [E | [E | E]]]];
        [rewrite E; vm_compute; discriminate .. | contradiction]. }
    rewrite HL. split; reflexivity.
Qed.

Lemma Panic_is_dropped_under_fatal_witness :
  Panic "p" [] (snd (LogInit "fatal" (start quiet))) =
    (Panicked (PanicMessage "p"), snd (LogInit "fatal" (start quiet))) /\
  writes (world (snd (Panic "p" [] (snd (LogInit "error" (start quiet)))))) =
    [(os.Opened "./user-service.log", jsonLine 4 "p" []);
     (os.Stdout, consoleLine 4 "p" [])].
Proof.
  split.
  - apply (proj1 (Panic_is_dropped_under_fatal "fatal" quiet [] "p" [])).
    reflexivity.
  - apply (proj2 (Panic_is_dropped_under_fatal "error" quiet [] "p" [])).
    vm_compute. discriminate.
Defined.

(** ** What the sinks hold *)


(** X5.  The two sinks hold the same records in the same order: after
    any sequence of calls, the entries and fields that went through the
    JSON encoder are those that went through the console encoder. *)
Theorem sinks_hold_the_same_records :
  forall (oe : string -> option string) (se : os.File -> option string)
         (cs : list Call),
    jsonRecords (world (run_all cs (start (fresh_world oe se)))) =
      consoleRecords (world (run_all cs (start (fresh_world oe se)))).
Proof.
  intros oe se cs. unfold jsonRecords, consoleRecords.
  apply (recorded_lockstep (fileSink (fresh_world oe se))).
  apply reached_recorded.
Qed.

(** X6.  Each encoding has its own destination: every JSON line is on
    the file sink (the log file, or standard output when the file did
    not open) and every console line is on standard output; no other
    file is ever written.  So when the log file opens it holds JSON
    lines only, and standard output console lines only. *)
Theorem each_encoding_has_its_destination :
  forall (oe : string -> option string) (se : os.File -> option string)
         (cs : list Call),
    Forall
      (fun p =>
         fst p = if isJSON (snd p)
                 then (match oe "./user-service.log" with
                       | None => os.Opened "./user-service.log"
                       | Some _ => os.Stdout
                       end)
                 else os.Stdout)
      (writes (world (run_all cs (start (fresh_world oe se))))).
Proof.
  intros oe se cs.
  apply (recorded_Forall (fileSink (fresh_world oe se)));
    [| apply reached_recorded].
  intros s msg fields. split; reflexivity.
Qed.

(** ** How the functions compose *)



(** X8.  On every process [GetLogger] returns a logger that is not nil,
    and a second call returns the same logger and changes nothing. *)
Theorem GetLogger_is_never_nil :
  forall (w : World) (cs : list Call),
    let st := run_all cs (start w) in
    exists lg : zap.Logger,
      fst (GetLogger st) = Returned (Some lg) /\
      GetLogger (snd (GetLogger st)) =
        (Returned (Some lg), snd (GetLogger st)).
Proof.
  intros w cs st.
  pose proof (reached_tracks w cs) as H. fold st in H.
  destruct (tracks_shape _ _ H) as [Hu | Ho].
  - rewrite (GetLogger_unused st Hu). simpl.
    eexists. split; [reflexivity|].
    apply GetLogger_set. reflexivity.
  - destruct (tracks_logger _ _ H Ho) as [name Hl].
    rewrite (GetLogger_set st _ Hl). simpl.
    eexists. split; [reflexivity|].
    apply GetLogger_set. assumption.
Qed.

(** X9.  Lazy initialisation uses up the one initialisation: when the
    first call of a process is [GetLogger] or an emit function, the
    level is info, and a [LogInit] made afterwards, with any level name,
    and every later call leave it at info. *)
Theorem lazy_initialization_pins_info :
  forall (w : World) (level : string) (cs : list Call),
    (forall (f : EmitFn) (msg : string) (fields : list zap.Field),
        min_levels (run_all (CallEmit f msg fields :: CallLogInit level :: cs)
                      (start w)) =
          Some [zapcore.InfoLevel; zapcore.InfoLevel]) /\
    min_levels (run_all (CallGetLogger :: CallLogInit level :: cs) (start w)) =
      Some [zapcore.InfoLevel; zapcore.InfoLevel].
Proof.
  intros w level cs.
  assert (Hu : unused (start w)) by (split; reflexivity).
  assert (G : forall c,
             initialized (snd (run c (start w))) ->
             logger (snd (run c (start w))) =
               Some (configured zapcore.InfoLevel (fileSink w)) ->
             min_levels (run_all (c :: CallLogInit level :: cs) (start w)) =
               Some [zapcore.InfoLevel; zapcore.InfoLevel]).
  { intros c Hi Hl. cbn [run_all].
    destruct (run c (start w)) as [[a | v | code] st'] eqn:E; cbn [snd] in Hi, Hl.
    - destruct (run_all_keeps_logger (CallLogInit level :: cs) st' Hi) as [Hk _].
      cbn [run_all] in Hk.
      apply (min_levels_configured _ _ (fileSink w)). rewrite Hk. exact Hl.
    - destruct (run_all_keeps_logger (CallLogInit level :: cs) st' Hi) as [Hk _].
      cbn [run_all] in Hk.
      apply (min_levels_configured _ _ (fileSink w)). rewrite Hk. exact Hl.
    - apply (min_levels_configured _ _ (fileSink w)). exact Hl. }
  split.
  - intros f msg fields. apply G.
    + destruct (run_shape (CallEmit f msg fields) (start w) (or_introl Hu))
        as [[Ho Hn] | Hi]; [| exact Hi].
      exfalso. simpl in Hn.
      rewrite (emit_unused f msg fields _ Hu), log_configured in Hn.
      discriminate Hn.
    + simpl. rewrite (emit_unused f msg fields _ Hu), log_configured.
      reflexivity.
  - apply G.
    + simpl. unfold bind. rewrite (GetLogger_unused _ Hu).
      split; simpl; eauto.
    + simpl. unfold bind. rewrite (GetLogger_unused _ Hu). reflexivity.
Qed.

(** ** What initialisation prints and opens *)


(** X11.  [LogInit] cannot fail.  In every state it returns normally,
    writes no line to any sink and leaves [once] done.  A failed flush
    right after construction changes neither that nor the logger built:
    it only adds one message to the standard logger, made of the sync
    errors of the file sink and of standard output, in this order,
    joined by ["; "]; when both syncs succeed no such message appears. *)
Theorem LogInit_never_fails :
  (forall (level : string) (st : Proc),
      fst (LogInit level st) = Returned tt /\
      once (snd (LogInit level st)) = true /\
      writes (world (snd (LogInit level st))) = writes (world st)) /\
  (forall (level : string) (w : World),
      let st1 := snd (LogInit level (start w)) in
      logger st1 = Some (configured (zapLevel_of level) (fileSink w)) /\
      (sync_err w (fileSink w) = None -> sync_err w os.Stdout = None ->
       stdlog (world st1) = stdlog w ++ openFailure w) /\
      (forall e, sync_err w (fileSink w) = None -> sync_err w os.Stdout = Some e ->
       stdlog (world st1) =
         stdlog w ++ openFailure w ++
         [("Failed to flush logger: " ++ e ++ nl)%string]) /\
      (forall e, sync_err w (fileSink w) = Some e -> sync_err w os.Stdout = None ->
       stdlog (world st1) =
         stdlog w ++ openFailure w ++
         [("Failed to flush logger: " ++ e ++ nl)%string]) /\
      (forall e1 e2,
          sync_err w (fileSink w) = Some e1 -> sync_err w os.Stdout = Some e2 ->
          stdlog (world st1) =
            stdlog w ++ openFailure w ++
            [("Failed to flush logger: " ++ (e1 ++ "; " ++ e2) ++ nl)%string])).
Proof.
  split.
  - intros level st. destruct (once st) eqn:Ho.
    + rewrite LogInit_done by assumption. auto.
    + rewrite LogInit_unused by assumption. auto.
  - intros level w st1. unfold st1.
    rewrite LogInit_unused by reflexivity. simpl.
    split; [reflexivity|].
    unfold flushFailure.
    repeat split; intros; repeat
      match goal with
      | H : sync_err w _ = _ |- _ => rewrite H; clear H
      end; simpl; rewrite ?app_nil_r; reflexivity.
Qed.

Lemma LogInit_never_fails_witness :
  stdlog (world (snd (LogInit "warn" (start readOnly)))) =
    [("Failed to open log file: permission denied" ++ nl)%string;
     ("Failed to flush logger: sync /dev/stdout: invalid argument; sync /dev/stdout: invalid argument" ++ nl)%string].
Proof.
  apply (proj2 (proj2 (proj2 (proj2 (proj2 LogInit_never_fails "warn" readOnly))))
           "sync /dev/stdout: invalid argument"
           "sync /dev/stdout: invalid argument");
    reflexivity.
Defined.
